(** * Code Personality Themes: the mode engine of [src/extension.ts]

    A shallow embedding of the extension's [PersonalityState] class and of
    the free functions around it ([getConfig], [countAllDiagnostics],
    [applyMode]), followed by the properties of the specification.

    Conventions of the embedding.
    - A JavaScript [number] holding a millisecond timestamp, a count or an
      integer setting is a [Z].
    - The editor is ambient in the source ([Date.now()], [vscode.workspace],
      [vscode.languages]).  Here it is an explicit [Host] snapshot: what the
      editor answers during one synchronous turn of the event loop.  A
      method that reads the clock or the settings takes the snapshot of the
      turn it runs in.
    - The [PersonalityState] object is mutated in place in the source; here
      every method returns the new state.
    - The only suspension point is [await workbench.update(...)] inside
      [applyMode]; what the editor does with that request is an
      [UpdateReply]. *)

From Stdlib Require Import ZArith List Sorted Lia.
From stdpp Require Import gmap strings list fin_maps.

Open Scope Z_scope.

(** ** The editor as seen by the extension *)

(** [type Mode = "calm" | "focus" | "panic"] *)
Inductive Mode : Type := calm | focus | panic.

#[global] Instance Mode_eq_dec : EqDecision Mode.
Proof. solve_decision. Defined.

(** A diagnostic of the editor.  The extension only ever counts them. *)
Record Diagnostic : Type := { message : string }.

(** An open text document; [uri] is the only member the extension reads. *)
Record TextDocument : Type := { uri : string }.

(** The [codePersonalityThemes] section of the settings: a key that the
    user has not set is [None], and [get(key, default)] falls back. *)
Record Settings : Type := {
  s_enabled : option bool;
  s_calmTheme : option string;
  s_focusTheme : option string;
  s_panicTheme : option string;
  s_panicErrorThreshold : option Z;
  s_focusTypingBurstThreshold : option Z;
  s_idleSecondsForCalm : option Z;
  s_cooldownSeconds : option Z
}.

Record Host : Type := {
  (** [Date.now()] *)
  dateNow : Z;
  (** [vscode.workspace.getConfiguration("codePersonalityThemes")] *)
  settings : Settings;
  (** [vscode.workspace.textDocuments] *)
  textDocuments : list TextDocument;
  (** the diagnostics registry behind [vscode.languages.getDiagnostics] *)
  registry : gmap string (list Diagnostic);
  (** [workbench.colorTheme], possibly undefined *)
  colorTheme : option string
}.

(** The object literal returned by [getConfig]. *)
Record Config : Type := {
  calmTheme : string;
  focusTheme : string;
  panicTheme : string;
  panicErrorThreshold : Z;
  focusTypingBurstThreshold : Z;
  idleSecondsForCalm : Z;
  cooldownSeconds : Z
}.

Definition getEnabled (h : Host) : bool :=
  default true (s_enabled (settings h)).

Definition getConfig (h : Host) : Config :=
  let c := settings h in
  {| calmTheme := default "Personality: Calm"%string (s_calmTheme c);
     focusTheme := default "Personality: Focus"%string (s_focusTheme c);
     panicTheme := default "Personality: Panic"%string (s_panicTheme c);
     panicErrorThreshold := default 5 (s_panicErrorThreshold c);
     focusTypingBurstThreshold := default 12 (s_focusTypingBurstThreshold c);
     idleSecondsForCalm := default 20 (s_idleSecondsForCalm c);
     cooldownSeconds := default 15 (s_cooldownSeconds c) |}.

(** [vscode.languages.getDiagnostics(uri)]: the diagnostics of one
    resource, the empty array when it has none. *)
Definition getDiagnosticsOf (h : Host) (u : string) : list Diagnostic :=
  default [] (registry h !! u).

(** [vscode.languages.getDiagnostics()]: one tuple per resource. *)
Definition getDiagnostics (h : Host) : list (string * list Diagnostic) :=
  map_to_list (registry h).

(** [array.length] as a number. *)
Definition len {A : Type} (l : list A) : Z := Z.of_nat (length l).

(** [countAllDiagnostics]: the two [for] loops over one accumulator. *)
Definition countAllDiagnostics (h : Host) : Z :=
  let total := 0 in
  let total :=
    fold_left (fun total u => total + len (getDiagnosticsOf h u))
              (List.map uri (textDocuments h)) total in
  let total :=
    fold_left (fun total entry => total + len (snd entry))
              (getDiagnostics h) total in
  total.

(** The number of diagnostics the editor knows of, each counted once:
    the sizes of the registry's entries, one entry per resource. *)
Definition knownDiagnostics (h : Host) : Z :=
  map_fold (fun _ diags n => n + len diags) 0 (registry h).

(** The diagnostics of the open documents, an open document counted as
    often as it is listed. *)
Definition openDiagnostics (h : Host) : Z :=
  foldr (fun d n => len (getDiagnosticsOf h (uri d)) + n) 0 (textDocuments h).

(** ** [class PersonalityState] *)

Record PersonalityState : Type := {
  lastEditAt : Z;
  editTimestamps : list Z;
  lastAppliedAt : Z;
  lastMode : option Mode
}.

(** [new PersonalityState()]: the field initialisers. *)
Definition newPersonalityState (h : Host) : PersonalityState :=
  {| lastEditAt := dateNow h;
     editTimestamps := [];
     lastAppliedAt := 0;
     lastMode := None |}.

Definition onEdit (h : Host) (this : PersonalityState) : PersonalityState :=
  let now := dateNow h in
  let pushed := editTimestamps this ++ [now] in
  let cutoff := now - 10000 in
  {| lastEditAt := now;
     editTimestamps := List.filter (fun t => t >=? cutoff) pushed;
     lastAppliedAt := lastAppliedAt this;
     lastMode := lastMode this |}.

Definition onDiagnosticsChanged (this : PersonalityState) : PersonalityState :=
  this.

Definition computeMode (h : Host) (this : PersonalityState) : Mode :=
  let cfg := getConfig h in
  let now := dateNow h in
  let totalDiagnostics := countAllDiagnostics h in
  if totalDiagnostics >=? panicErrorThreshold cfg then panic
  else
    let editsInWindow := len (editTimestamps this) in
    if editsInWindow >=? focusTypingBurstThreshold cfg then focus
    else
      let idleMs := now - lastEditAt this in
      if idleMs >=? idleSecondsForCalm cfg * 1000 then calm
      else focus.

Definition isPanicRecovery (this : PersonalityState) (newMode : Mode) : bool :=
  bool_decide (lastMode this = Some panic) && bool_decide (newMode <> panic).

Definition canApply (h : Host) (this : PersonalityState)
    (mode : Mode) (force : bool) : bool :=
  if force then true
  else
    let cfg := getConfig h in
    let now := dateNow h in
    if bool_decide (lastMode this = Some mode) then false
    else if bool_decide (lastMode this = Some panic) && bool_decide (mode = calm)
    then true
    else
      let cooldownMs := cooldownSeconds cfg * 1000 in
      if now - lastAppliedAt this <? cooldownMs then false
      else true.

Definition markApplied (h : Host) (mode : Mode)
    (this : PersonalityState) : PersonalityState :=
  {| lastEditAt := lastEditAt this;
     editTimestamps := editTimestamps this;
     lastAppliedAt := dateNow h;
     lastMode := Some mode |}.

(** ** [applyMode] *)

(** What the editor does with [workbench.update("colorTheme", theme, Global)]:
    the promise is fulfilled, and the function resumes in a later turn
    whose snapshot is [resumed], or it is rejected, and the [await] throws
    out of [applyMode]. *)
Inductive UpdateReply : Type :=
  | Fulfilled (resumed : Host)
  | Rejected.

(** How a call of [applyMode] ended. *)
Inductive ApplyOutcome : Type :=
  | NotPermitted                    (* [canApply] was false: early return *)
  | AlreadyCurrent (theme : string) (* the theme was in place: no update *)
  | Updated (theme : string)        (* update requested and fulfilled *)
  | UpdateFailed (theme : string).  (* update requested and rejected *)

Definition themeOf (cfg : Config) (mode : Mode) : string :=
  match mode with
  | calm => calmTheme cfg
  | panic => panicTheme cfg
  | focus => focusTheme cfg
  end.

Definition applyMode (h : Host) (reply : UpdateReply)
    (mode : Mode) (state : PersonalityState) (force : bool)
  : PersonalityState * ApplyOutcome :=
  if negb (canApply h state mode force) then (state, NotPermitted)
  else
    let cfg := getConfig h in
    let theme := themeOf cfg mode in
    let currentTheme := colorTheme h in
    if bool_decide (currentTheme <> Some theme) then
      match reply with
      | Fulfilled resumed => (markApplied resumed mode state, Updated theme)
      | Rejected => (state, UpdateFailed theme)
      end
    else (markApplied h mode state, AlreadyCurrent theme).

(** Whether the call asked the editor to change the theme, and whether the
    editor did. *)
Definition updatePerformed (o : ApplyOutcome) : bool :=
  match o with Updated _ => true | _ => false end.

(** ** The handlers registered by [activate] *)

Inductive Event : Type :=
  | DidChangeTextDocument
  | DidChangeDiagnostics (reply : UpdateReply)
  | IntervalElapsed (reply : UpdateReply)
  | Activated (reply : UpdateReply).

(** One handler run: [h] is the snapshot of the turn in which the handler
    starts. *)
Definition handle (h : Host) (e : Event) (state : PersonalityState)
  : PersonalityState :=
  if negb (getEnabled h) then state
  else
    match e with
    | DidChangeTextDocument => onEdit h state
    | DidChangeDiagnostics reply =>
        let state := onDiagnosticsChanged state in
        let mode := computeMode h state in
        if isPanicRecovery state mode
        then fst (applyMode h reply mode state true)
        else state
    | IntervalElapsed reply =>
        let mode := computeMode h state in
        fst (applyMode h reply mode state (isPanicRecovery state mode))
    | Activated reply =>
        let mode := computeMode h state in
        fst (applyMode h reply mode state true)
    end.

(** A session: the handlers run one after the other. *)
Definition run (trace : list (Host * Event)) (state : PersonalityState)
  : PersonalityState :=
  fold_left (fun st he => handle (fst he) (snd he) st) trace state.

(** The clock readings of a trace, in order. *)
Definition clockOf (trace : list (Host * Event)) : list Z :=
  List.map (fun he => dateNow (fst he)) trace.

(** ** Concrete hosts used in the examples *)

Definition noSettings : Settings :=
  {| s_enabled := None; s_calmTheme := None; s_focusTheme := None;
     s_panicTheme := None; s_panicErrorThreshold := None;
     s_focusTypingBurstThreshold := None; s_idleSecondsForCalm := None;
     s_cooldownSeconds := None |}.

(** An editor with default settings, no document and no diagnostic, whose
    clock reads [t]. *)
Definition hostAt (t : Z) : Host :=
  {| dateNow := t; settings := noSettings; textDocuments := [];
     registry := ∅; colorTheme := None |}.

(** The snapshot [h] with the clock at [t]. *)
Definition withClock (h : Host) (t : Z) : Host :=
  {| dateNow := t; settings := settings h; textDocuments := textDocuments h;
     registry := registry h; colorTheme := colorTheme h |}.

(** One open document carrying one diagnostic. *)
Definition oneOpenError : Host :=
  {| dateNow := 0; settings := noSettings;
     textDocuments := [ {| uri := "file:///a.ts" |} ];
     registry := {[ "file:///a.ts"%string := [ {| message := "unused" |} ] ]};
     colorTheme := None |}.

(** A closed document carrying five diagnostics, a minute after start. *)
Definition fiveErrors : Host :=
  {| dateNow := 60000; settings := noSettings;
     textDocuments := [];
     registry := {[ "file:///a.ts"%string :=
                      List.repeat {| message := "type error" |} 5 ]};
     colorTheme := None |}.

(** Three diagnostics, all in one open document. *)
Definition threeOpenErrors : Host :=
  {| dateNow := 0; settings := noSettings;
     textDocuments := [ {| uri := "file:///a.ts" |} ];
     registry := {[ "file:///a.ts"%string :=
                      List.repeat {| message := "type error" |} 3 ]};
     colorTheme := None |}.

(** The focus theme is already the workbench's colour theme. *)
Definition focusInPlace : Host :=
  {| dateNow := 5000; settings := noSettings; textDocuments := [];
     registry := ∅; colorTheme := Some "Personality: Focus"%string |}.

(** A burst threshold of one edit, everything else by default. *)
Definition burstOfOne (t : Z) : Host :=
  {| dateNow := t;
     settings :=
       {| s_enabled := None; s_calmTheme := None; s_focusTheme := None;
          s_panicTheme := None; s_panicErrorThreshold := None;
          s_focusTypingBurstThreshold := Some 1;
          s_idleSecondsForCalm := None; s_cooldownSeconds := None |};
     textDocuments := []; registry := ∅; colorTheme := None |}.

(** A burst threshold of zero, everything else by default. *)
Definition burstOfZero (t : Z) : Host :=
  {| dateNow := t;
     settings :=
       {| s_enabled := None; s_calmTheme := None; s_focusTheme := None;
          s_panicTheme := None; s_panicErrorThreshold := None;
          s_focusTypingBurstThreshold := Some 0;
          s_idleSecondsForCalm := None; s_cooldownSeconds := None |};
     textDocuments := []; registry := ∅; colorTheme := None |}.

(** The state right after [markApplied(mode)] at time [t]. *)
Definition appliedAt (t : Z) (mode : Mode) : PersonalityState :=
  markApplied (hostAt t) mode (newPersonalityState (hostAt 0)).

(** [onEdit] at each of the clock readings [ts], in order. *)
Definition editsAt (h : Host) (ts : list Z)
    (state : PersonalityState) : PersonalityState :=
  fold_left (fun st t => onEdit (withClock h t) st) ts state.

(** The window invariant that lazy pruning maintains: the entries are in
    chronological order and no older than ten seconds before the latest
    edit. *)
Definition windowInv (st : PersonalityState) : Prop :=
  Sorted Z.le (editTimestamps st) /\
  Forall (fun t => lastEditAt st - 10000 <= t <= lastEditAt st)
         (editTimestamps st).

(** The invariant as it is carried through a session: the window is
    sorted, within ten seconds before the last edit, and the last edit is
    not in the future of the clock reading [c]. *)
Definition windowAt (c : Z) (st : PersonalityState) : Prop :=
  StronglySorted Z.le (editTimestamps st) /\
  Forall (fun t => lastEditAt st - 10000 <= t <= lastEditAt st)
         (editTimestamps st) /\
  lastEditAt st <= c.

(** Ten edits, one per second from [t = 0] to [t = 9] seconds, on a state
    created under the snapshot [h]. *)
Definition tenEdits (h : Host) : PersonalityState :=
  editsAt h [0; 1000; 2000; 3000; 4000; 5000; 6000; 7000; 8000; 9000]
          (newPersonalityState h).

(** One edit at [t = 0], seen from a later tick. *)
Definition oneEditAtZero : PersonalityState :=
  run [(hostAt 0, DidChangeTextDocument)] (newPersonalityState (hostAt 0)).

(** ** Further hosts, states and predicates used below *)

(** The extension switched off in the settings, the clock at [t]. *)
Definition disabledAt (t : Z) : Host :=
  {| dateNow := t;
     settings :=
       {| s_enabled := Some false; s_calmTheme := None; s_focusTheme := None;
          s_panicTheme := None; s_panicErrorThreshold := None;
          s_focusTypingBurstThreshold := None;
          s_idleSecondsForCalm := None; s_cooldownSeconds := None |};
     textDocuments := []; registry := ∅; colorTheme := None |}.

(** Default settings but for [panicErrorThreshold], [idleSecondsForCalm]
    and [cooldownSeconds], the clock at [t]. *)
Definition tunedAt (t panicT idleT cooldownT : Z) : Host :=
  {| dateNow := t;
     settings :=
       {| s_enabled := None; s_calmTheme := None; s_focusTheme := None;
          s_panicTheme := None; s_panicErrorThreshold := Some panicT;
          s_focusTypingBurstThreshold := None;
          s_idleSecondsForCalm := Some idleT;
          s_cooldownSeconds := Some cooldownT |};
     textDocuments := []; registry := ∅; colorTheme := None |}.

(** Two open documents, one with two diagnostics and one with none, and a
    closed document with three. *)
Definition mixedDocuments : Host :=
  {| dateNow := 0; settings := noSettings;
     textDocuments := [ {| uri := "file:///a.ts" |}; {| uri := "file:///b.ts" |} ];
     registry :=
       <[ "file:///a.ts"%string := List.repeat {| message := "type error" |} 2 ]>
         {[ "file:///c.ts"%string := List.repeat {| message := "lint" |} 3 ]};
     colorTheme := None |}.

(** Five diagnostics in a closed document, the clock at [t]. *)
Definition fiveErrorsAt (t : Z) : Host :=
  withClock fiveErrors t.

(** Whether the event is a change of the diagnostics. *)
Definition isDiagnosticsChange (e : Event) : bool :=
  match e with DidChangeDiagnostics _ => true | _ => false end.

(** Whether the event is a text edit. *)
Definition isEdit (e : Event) : bool :=
  match e with DidChangeTextDocument => true | _ => false end.

(** Whether the call reached [state.markApplied(mode)], the last statement
    of [applyMode]: it did on the two paths that run to the end. *)
Definition markedApplied (o : ApplyOutcome) : bool :=
  match o with
  | AlreadyCurrent _ | Updated _ => true
  | NotPermitted | UpdateFailed _ => false
  end.

(** The calm theme is already the workbench's colour theme, the clock at
    [t]. *)
Definition calmInPlace (t : Z) : Host :=
  {| dateNow := t; settings := noSettings; textDocuments := [];
     registry := ∅; colorTheme := Some "Personality: Calm"%string |}.

(** * Properties *)

(** ** Counting diagnostics *)

Section Counting.

Lemma fold_left_sum {A : Type} (g : A -> Z) (l : list A) (a : Z) :
  fold_left (fun acc x => acc + g x) l a
  = a + foldr (fun x n => g x + n) 0 l.
Proof.
  revert a. induction l as [|x l IH]; intros a; simpl.
  - lia.
  - rewrite IH. lia.
Qed.

Lemma len_nonneg {A : Type} (l : list A) : 0 <= len l.
Proof. unfold len. lia. Qed.

Lemma openDiagnostics_nonneg (h : Host) : 0 <= openDiagnostics h.
Proof.
  unfold openDiagnostics.
  induction (textDocuments h) as [|d ds IH]; simpl; [lia|].
  pose proof (len_nonneg (getDiagnosticsOf h (uri d))). lia.
Qed.

(** What the two loops add up to: every known diagnostic once, and the
    diagnostics of the open documents once more. *)
Lemma countAllDiagnostics_eq (h : Host) :
  countAllDiagnostics h = openDiagnostics h + knownDiagnostics h.
Proof.
  unfold countAllDiagnostics, openDiagnostics, knownDiagnostics, getDiagnostics.
  rewrite (fold_left_sum (fun e => len (snd e))).
  rewrite (fold_left_sum (fun u => len (getDiagnosticsOf h u))).
  rewrite map_fold_foldr.
  f_equal.
  - induction (textDocuments h) as [|d ds IH]; simpl; [reflexivity|].
    simpl in IH. lia.
  - induction (map_to_list (registry h)) as [|[k v] l IH]; simpl; [reflexivity|].
    rewrite IH. lia.
Qed.

Lemma countAllDiagnostics_ge_known (h : Host) :
  knownDiagnostics h <= countAllDiagnostics h.
Proof.
  rewrite countAllDiagnostics_eq.
  pose proof (openDiagnostics_nonneg h). lia.
Qed.

End Counting.

(** C1.  The count fed into the mode decision is meant to be the number of
    diagnostics of all known documents, each counted once.  With one open
    document that carries one diagnostic the registry holds one
    diagnostic, and [countAllDiagnostics] returns two: the first loop
    counts the diagnostics of the open documents, and the second loop,
    which runs over every resource, counts them again. *)
Theorem countAllDiagnostics_counts_open_document_twice :
  knownDiagnostics oneOpenError = 1 /\ countAllDiagnostics oneOpenError = 2.
Proof. split; vm_compute; reflexivity. Qed.

(** What the double count does to the mode: three diagnostics in an open
    document are counted as six, which reaches the default threshold of
    five. *)
Example countAllDiagnostics_double_count_panics :
  knownDiagnostics threeOpenErrors = 3 /\
  countAllDiagnostics threeOpenErrors = 6 /\
  computeMode threeOpenErrors (newPersonalityState threeOpenErrors) = panic.
Proof. repeat split; vm_compute; reflexivity. Qed.

(** ** The mode decision *)

(** [a >= b] of the source, as a proposition. *)
Lemma geb_true (a b : Z) : (a >=? b) = true <-> b <= a.
Proof. rewrite Z.geb_leb. apply Z.leb_le. Qed.

Lemma geb_false (a b : Z) : (a >=? b) = false <-> a < b.
Proof. rewrite Z.geb_leb. apply Z.leb_gt. Qed.

(** C2.  Whenever the diagnostics count reaches [panicErrorThreshold],
    [computeMode] returns [panic], whatever the edit window, the time of
    the last edit and the clock are. *)
Theorem computeMode_panic_first (h : Host) (this : PersonalityState) :
  panicErrorThreshold (getConfig h) <= countAllDiagnostics h ->
  computeMode h this = panic.
Proof.
  intros Hd. unfold computeMode.
  apply geb_true in Hd. rewrite Hd. reflexivity.
Qed.

(** The same holds for the number of diagnostics counted once each, since
    the count of the code is never below it. *)
Corollary computeMode_panic_known (h : Host) (this : PersonalityState) :
  panicErrorThreshold (getConfig h) <= knownDiagnostics h ->
  computeMode h this = panic.
Proof.
  intros Hd. pose proof (countAllDiagnostics_ge_known h) as Hge.
  unfold computeMode.
  rewrite (proj2 (geb_true _ _)) by lia. reflexivity.
Qed.

(** Five diagnostics against the default threshold of five, after a
    minute without any edit. *)
Lemma computeMode_panic_first_witness :
  panicErrorThreshold (getConfig fiveErrors) <= countAllDiagnostics fiveErrors /\
  computeMode fiveErrors (newPersonalityState (hostAt 0)) = panic.
Proof.
  split; [vm_compute; discriminate|].
  apply computeMode_panic_first. vm_compute. discriminate.
Defined.

(** C8.  Below the panic threshold, a burst count that reaches
    [focusTypingBurstThreshold] gives [focus]; the idle time is not
    looked at, so this holds also when it has reached the calm
    threshold. *)
Theorem computeMode_burst_before_idle (h : Host) (this : PersonalityState) :
  countAllDiagnostics h < panicErrorThreshold (getConfig h) ->
  focusTypingBurstThreshold (getConfig h) <= len (editTimestamps this) ->
  computeMode h this = focus.
Proof.
  intros Hd Hb. unfold computeMode.
  apply geb_false in Hd. apply geb_true in Hb.
  rewrite Hd, Hb. reflexivity.
Qed.

(** Twelve edits in the window, then sixty idle seconds: the idle time is
    far beyond the twenty seconds for calm, and the mode is focus. *)
Lemma computeMode_burst_before_idle_witness :
  idleSecondsForCalm (getConfig (hostAt 69000)) * 1000
    <= dateNow (hostAt 69000)
       - lastEditAt (editsAt (hostAt 0) (List.map (Z.mul 750) (seqZ 1 12))
                             (newPersonalityState (hostAt 0))) /\
  computeMode (hostAt 69000)
    (editsAt (hostAt 0) (List.map (Z.mul 750) (seqZ 1 12))
             (newPersonalityState (hostAt 0))) = focus.
Proof.
  split; [vm_compute; discriminate|].
  apply computeMode_burst_before_idle; vm_compute; [reflexivity | discriminate].
Defined.

(** C10.  With [focusTypingBurstThreshold = 0] the burst check always
    succeeds, because a length is never negative: [computeMode] never
    returns [calm], and below the panic threshold it returns [focus]
    whatever the idle time is. *)
Theorem computeMode_zero_burst_never_calm (h : Host) (this : PersonalityState) :
  focusTypingBurstThreshold (getConfig h) = 0 ->
  computeMode h this <> calm /\
  (countAllDiagnostics h < panicErrorThreshold (getConfig h) ->
   computeMode h this = focus).
Proof.
  intros H0.
  pose proof (len_nonneg (editTimestamps this)) as Hlen.
  unfold computeMode. rewrite H0.
  destruct (countAllDiagnostics h >=? panicErrorThreshold (getConfig h)) eqn:Ed.
  - split; [discriminate|]. intros Hlt. apply geb_true in Ed. lia.
  - destruct (len (editTimestamps this) >=? 0) eqn:Eb.
    + split; [discriminate | reflexivity].
    + apply geb_false in Eb. lia.
Qed.

(** No edit at all and an hour of idleness: still focus. *)
Lemma computeMode_zero_burst_never_calm_witness :
  computeMode (burstOfZero 3600000) (newPersonalityState (burstOfZero 0)) <> calm /\
  computeMode (burstOfZero 3600000) (newPersonalityState (burstOfZero 0)) = focus.
Proof.
  destruct (computeMode_zero_burst_never_calm
              (burstOfZero 3600000) (newPersonalityState (burstOfZero 0))
              eq_refl) as [Hne Hf].
  split; [exact Hne|]. apply Hf. vm_compute. reflexivity.
Defined.

(** With the default threshold the same state is calm: the zero threshold
    is what rules calm out. *)
Example computeMode_default_burst_calm :
  computeMode (hostAt 3600000) (newPersonalityState (hostAt 0)) = calm.
Proof. vm_compute. reflexivity. Qed.

(** ** The apply gate *)

Section Gate.

Variables (h : Host) (this : PersonalityState).

(** Past the two special cases, [canApply] is the cooldown test. *)
Lemma canApply_cooldown_test (mode : Mode) :
  lastMode this <> Some mode ->
  ~ (lastMode this = Some panic /\ mode = calm) ->
  canApply h this mode false
  = negb (dateNow h - lastAppliedAt this <? cooldownSeconds (getConfig h) * 1000).
Proof.
  intros Hne Hpc. unfold canApply.
  rewrite bool_decide_eq_false_2 by exact Hne.
  destruct (bool_decide (lastMode this = Some panic)) eqn:Ep;
    destruct (bool_decide (mode = calm)) eqn:Ec; simpl.
  - apply bool_decide_eq_true_1 in Ep. apply bool_decide_eq_true_1 in Ec.
    exfalso. apply Hpc. split; assumption.
  - destruct (_ <? _); reflexivity.
  - destruct (_ <? _); reflexivity.
  - destruct (_ <? _); reflexivity.
Qed.

End Gate.

(** C5.  Unforced, leaving panic for calm is allowed whatever the time
    since the last apply is; leaving panic for focus has no such case and
    is decided by the cooldown test. *)
Theorem canApply_panic_calm_bypass (h : Host) (this : PersonalityState) :
  lastMode this = Some panic ->
  canApply h this calm false = true /\
  canApply h this focus false
  = negb (dateNow h - lastAppliedAt this <? cooldownSeconds (getConfig h) * 1000).
Proof.
  intros Hp. split.
  - unfold canApply. rewrite Hp. reflexivity.
  - apply canApply_cooldown_test.
    + rewrite Hp. discriminate.
    + intros [_ Hc]. discriminate.
Qed.

(** One millisecond after panic was applied: calm passes, focus does not. *)
Lemma canApply_panic_calm_bypass_witness :
  canApply (hostAt 1001) (appliedAt 1000 panic) calm false = true /\
  canApply (hostAt 1001) (appliedAt 1000 panic) focus false = false.
Proof.
  destruct (canApply_panic_calm_bypass (hostAt 1001) (appliedAt 1000 panic) eq_refl)
    as [Hc Hf].
  split; [exact Hc|]. rewrite Hf. vm_compute. reflexivity.
Defined.

(** C6.  With [cooldownSeconds = 15], for an unforced mode that differs
    from the last applied one and is not the panic-to-calm pair: ten
    seconds after the last apply [canApply] is false, sixteen seconds
    after it is true.  [h10] and [h16] are the snapshots of the two
    calls. *)
Theorem canApply_cooldown_fifteen
    (h10 h16 : Host) (this : PersonalityState) (mode : Mode) :
  cooldownSeconds (getConfig h10) = 15 ->
  cooldownSeconds (getConfig h16) = 15 ->
  lastMode this <> Some mode ->
  ~ (lastMode this = Some panic /\ mode = calm) ->
  dateNow h10 - lastAppliedAt this = 10000 ->
  dateNow h16 - lastAppliedAt this = 16000 ->
  canApply h10 this mode false = false /\
  canApply h16 this mode false = true.
Proof.
  intros C10 C16 Hne Hpc E10 E16.
  rewrite !canApply_cooldown_test by assumption.
  rewrite C10, C16, E10, E16. split; reflexivity.
Qed.

Lemma canApply_cooldown_fifteen_witness :
  canApply (hostAt 17000) (appliedAt 7000 calm) focus false = false /\
  canApply (hostAt 23000) (appliedAt 7000 calm) focus false = true.
Proof.
  apply canApply_cooldown_fifteen.
  - reflexivity.
  - reflexivity.
  - discriminate.
  - intros [Hp _]. discriminate.
  - reflexivity.
  - reflexivity.
Defined.

(** The threshold is [cooldownSeconds * 1000] milliseconds exactly: one
    millisecond short of it is refused, the threshold itself passes. *)
Example canApply_cooldown_edge :
  canApply (hostAt 21999) (appliedAt 7000 calm) focus false = false /\
  canApply (hostAt 22000) (appliedAt 7000 calm) focus false = true.
Proof. split; vm_compute; reflexivity. Qed.

(** C7.  Unforced, [canApply] refuses the mode that is already applied.
    It does not write to the state, so a second call finds the same
    [lastMode] and refuses again, whatever the clock and the settings have
    become ([h1] and [h2] are the snapshots of the two calls). *)
Theorem canApply_same_mode_refused
    (h1 h2 : Host) (this : PersonalityState) (mode : Mode) :
  lastMode this = Some mode ->
  canApply h1 this mode false = false /\
  canApply h2 this mode false = false.
Proof.
  intros Hm. unfold canApply.
  rewrite bool_decide_eq_true_2 by exact Hm.
  split; reflexivity.
Qed.

(** Focus applied at second 7; asked again one second and one hour later,
    the hour being far beyond the cooldown. *)
Lemma canApply_same_mode_refused_witness :
  canApply (hostAt 8000) (appliedAt 7000 focus) focus false = false /\
  canApply (hostAt 3607000) (appliedAt 7000 focus) focus false = false.
Proof. apply canApply_same_mode_refused. reflexivity. Defined.

(** ** Applying a mode *)

(** The three ways [applyMode] ends without a fulfilled update. *)
Lemma applyMode_cases (h : Host) (reply : UpdateReply)
    (mode : Mode) (state : PersonalityState) (force : bool) :
  let theme := themeOf (getConfig h) mode in
  let r := applyMode h reply mode state force in
  (canApply h state mode force = false /\ r = (state, NotPermitted)) \/
  (canApply h state mode force = true /\ colorTheme h = Some theme /\
   r = (markApplied h mode state, AlreadyCurrent theme)) \/
  (canApply h state mode force = true /\ colorTheme h <> Some theme /\
   reply = Rejected /\ r = (state, UpdateFailed theme)) \/
  (canApply h state mode force = true /\ colorTheme h <> Some theme /\
   exists resumed, reply = Fulfilled resumed /\
                   r = (markApplied resumed mode state, Updated theme)).
Proof.
  cbv zeta. unfold applyMode.
  destruct (canApply h state mode force); simpl.
  - right.
    destruct (decide (colorTheme h = Some (themeOf (getConfig h) mode))) as [Eq|Ne].
    + left. rewrite bool_decide_eq_false_2 by (intros N; exact (N Eq)).
      repeat split; assumption.
    + right. rewrite bool_decide_eq_true_2 by exact Ne.
      destruct reply as [resumed|].
      * right. repeat split; try assumption. exists resumed. split; reflexivity.
      * left. repeat split; assumption.
  - left. split; reflexivity.
Qed.

(** The claim of C3 as it is written fails when the target theme is
    already the workbench's colour theme: at start-up with the focus theme
    in place, [applyMode] asks for no update at all, and still records the
    mode and the time. *)
Lemma applyMode_marks_without_update :
  ~ (updatePerformed
       (snd (applyMode focusInPlace Rejected focus
                       (newPersonalityState (hostAt 0)) true)) = false ->
     lastMode (fst (applyMode focusInPlace Rejected focus
                              (newPersonalityState (hostAt 0)) true))
     = lastMode (newPersonalityState (hostAt 0)) /\
     lastAppliedAt (fst (applyMode focusInPlace Rejected focus
                                   (newPersonalityState (hostAt 0)) true))
     = lastAppliedAt (newPersonalityState (hostAt 0))).
Proof.
  intros H.
  destruct (H eq_refl) as [Hm _]. vm_compute in Hm. discriminate.
Qed.

(** What that call does, field by field. *)
Example applyMode_marks_without_update_values :
  applyMode focusInPlace Rejected focus (newPersonalityState (hostAt 0)) true
  = ({| lastEditAt := 0; editTimestamps := [];
        lastAppliedAt := 5000; lastMode := Some focus |},
     AlreadyCurrent "Personality: Focus").
Proof. vm_compute. reflexivity. Qed.

(** A consequence used for the retry on the next tick.  When the
    workbench's colour theme is not already the
    target theme, a call of [applyMode] in which no update was performed
    and fulfilled (the gate refused, or the update was rejected) leaves
    the whole state, so [lastMode] and [lastAppliedAt], as it was. *)
Theorem applyMode_unchanged_without_update (h : Host) (reply : UpdateReply)
    (mode : Mode) (state : PersonalityState) (force : bool) :
  colorTheme h <> Some (themeOf (getConfig h) mode) ->
  updatePerformed (snd (applyMode h reply mode state force)) = false ->
  fst (applyMode h reply mode state force) = state /\
  lastMode (fst (applyMode h reply mode state force)) = lastMode state /\
  lastAppliedAt (fst (applyMode h reply mode state force)) = lastAppliedAt state.
Proof.
  intros Hth Hup.
  assert (fst (applyMode h reply mode state force) = state) as E.
  { destruct (applyMode_cases h reply mode state force)
      as [[_ E]|[(_ & Hc & _)|[(_ & _ & _ & E)|(_ & _ & resumed & _ & E)]]].
    - rewrite E. reflexivity.
    - contradiction.
    - rewrite E. reflexivity.
    - rewrite E in Hup. discriminate. }
  rewrite E. repeat split.
Qed.

(** A rejected update at start-up: the state is still the initial one. *)
Lemma applyMode_unchanged_without_update_witness :
  fst (applyMode (hostAt 5000) Rejected focus (newPersonalityState (hostAt 0)) true)
  = newPersonalityState (hostAt 0) /\
  lastMode (fst (applyMode (hostAt 5000) Rejected focus
                           (newPersonalityState (hostAt 0)) true)) = None /\
  lastAppliedAt (fst (applyMode (hostAt 5000) Rejected focus
                                (newPersonalityState (hostAt 0)) true)) = 0.
Proof.
  apply (applyMode_unchanged_without_update
           (hostAt 5000) Rejected focus (newPersonalityState (hostAt 0)) true).
  - discriminate.
  - reflexivity.
Defined.

(** The other direction: [markApplied] runs exactly when the gate lets the
    call through and the target theme is in effect afterwards, either
    because the update was fulfilled or because it was there already. *)
Lemma applyMode_marks_iff (h : Host) (reply : UpdateReply)
    (mode : Mode) (state : PersonalityState) (force : bool) :
  let r := applyMode h reply mode state force in
  match snd r with
  | NotPermitted | UpdateFailed _ => fst r = state
  | AlreadyCurrent _ => fst r = markApplied h mode state
  | Updated _ =>
      exists resumed, reply = Fulfilled resumed /\
                      fst r = markApplied resumed mode state
  end.
Proof.
  cbv zeta.
  destruct (applyMode_cases h reply mode state force)
    as [[_ E]|[(_ & _ & E)|[(_ & _ & _ & E)|(_ & _ & resumed & Hr & E)]]];
    rewrite E; simpl; try reflexivity.
  exists resumed. split; [exact Hr | reflexivity].
Qed.

(** C3, amended.  [applyMode] reaches [markApplied] exactly when
    [canApply] permits the call and either the workbench's colour theme is
    already the target theme, in which case no update is performed, or
    the update is performed and fulfilled.  A fulfilled update happens
    exactly when the gate permits, the theme is not in place and the
    editor fulfils the request.  When [markApplied] is not reached, which
    includes every call the gate refuses, theme in place or not, and
    every rejected update, the whole state, so [lastMode] and
    [lastAppliedAt], is as before; when it is reached, the state is the
    one [markApplied] gives, with the computed mode and the clock of the
    turn in which it ran. *)
Theorem applyMode_marks_exactly_when_theme_set
    (h : Host) (reply : UpdateReply)
    (mode : Mode) (state : PersonalityState) (force : bool) :
  (markedApplied (snd (applyMode h reply mode state force)) = true
   <-> canApply h state mode force = true /\
       (colorTheme h = Some (themeOf (getConfig h) mode) \/
        exists resumed, reply = Fulfilled resumed)) /\
  (updatePerformed (snd (applyMode h reply mode state force)) = true
   <-> canApply h state mode force = true /\
       colorTheme h <> Some (themeOf (getConfig h) mode) /\
       exists resumed, reply = Fulfilled resumed) /\
  (canApply h state mode force = false ->
   applyMode h reply mode state force = (state, NotPermitted)) /\
  (markedApplied (snd (applyMode h reply mode state force)) = false ->
   fst (applyMode h reply mode state force) = state /\
   lastMode (fst (applyMode h reply mode state force)) = lastMode state /\
   lastAppliedAt (fst (applyMode h reply mode state force))
   = lastAppliedAt state) /\
  (markedApplied (snd (applyMode h reply mode state force)) = true ->
   lastMode (fst (applyMode h reply mode state force)) = Some mode /\
   fst (applyMode h reply mode state force)
   = markApplied
       (match reply with
        | Fulfilled resumed =>
            if bool_decide (colorTheme h = Some (themeOf (getConfig h) mode))
            then h else resumed
        | Rejected => h
        end)
       mode state).
Proof.
  destruct (applyMode_cases h reply mode state force)
    as [[Hc E]|[(Hc & Hth & E)|[(Hc & Hth & Hr & E)|(Hc & Hth & resumed & Hr & E)]]];
    rewrite E; cbn [fst snd markedApplied updatePerformed].
  - (* the gate refuses *)
    repeat split; try discriminate; try reflexivity.
    + intros [Hc' _]. congruence.
    + intros [Hc' _]. congruence.
  - (* the theme is in place *)
    repeat split; try discriminate; try reflexivity; try congruence.
    + left. exact Hth.
    + intros (_ & Hne & _). contradiction.
    + rewrite (bool_decide_eq_true_2 _ Hth). destruct reply; reflexivity.
  - (* the update is rejected *)
    subst reply.
    repeat split; try discriminate; try reflexivity; try congruence.
    + intros [_ [Hin|[resumed Hr]]]; [contradiction | discriminate].
    + intros (_ & _ & resumed & Hr). discriminate.
  - (* the update is fulfilled *)
    subst reply.
    repeat split; try discriminate; try reflexivity; try congruence;
      try exact Hth.
    + right. exists resumed. reflexivity.
    + exists resumed. reflexivity.
    + rewrite (bool_decide_eq_false_2 _ Hth). reflexivity.
Qed.

(** Four calls, one per path.  Calm asked for one second after focus was
    applied, the calm theme in place: the gate refuses and nothing is
    recorded.  A forced call with the theme in place: recorded at the
    clock of the call, no update.  A forced call whose update is
    rejected: nothing recorded.  A forced call whose update is
    fulfilled: recorded at the clock after the update. *)
Lemma applyMode_marks_exactly_when_theme_set_witness :
  applyMode (calmInPlace 8000) (Fulfilled (hostAt 8050)) calm
            (appliedAt 7000 focus) false
  = (appliedAt 7000 focus, NotPermitted) /\
  fst (applyMode (calmInPlace 8000) (Fulfilled (hostAt 8050)) calm
                 (appliedAt 7000 focus) true)
  = markApplied (calmInPlace 8000) calm (appliedAt 7000 focus) /\
  fst (applyMode (hostAt 8000) Rejected calm (appliedAt 7000 focus) true)
  = appliedAt 7000 focus /\
  fst (applyMode (hostAt 8000) (Fulfilled (hostAt 8050)) calm
                 (appliedAt 7000 focus) true)
  = markApplied (hostAt 8050) calm (appliedAt 7000 focus).
Proof.
  split; [|split; [|split]].
  - destruct (applyMode_marks_exactly_when_theme_set
                (calmInPlace 8000) (Fulfilled (hostAt 8050)) calm
                (appliedAt 7000 focus) false) as (_ & _ & Hrefused & _ & _).
    apply Hrefused. reflexivity.
  - destruct (applyMode_marks_exactly_when_theme_set
                (calmInPlace 8000) (Fulfilled (hostAt 8050)) calm
                (appliedAt 7000 focus) true) as (_ & _ & _ & _ & Hmarked).
    destruct (Hmarked eq_refl) as [_ E]. exact E.
  - destruct (applyMode_marks_exactly_when_theme_set
                (hostAt 8000) Rejected calm
                (appliedAt 7000 focus) true) as (_ & _ & _ & Hkept & _).
    destruct (Hkept eq_refl) as [E _]. exact E.
  - destruct (applyMode_marks_exactly_when_theme_set
                (hostAt 8000) (Fulfilled (hostAt 8050)) calm
                (appliedAt 7000 focus) true) as (_ & _ & _ & _ & Hmarked).
    destruct (Hmarked eq_refl) as [_ E]. exact E.
Defined.

(** ** The edit window *)

Section Window.

Lemma StronglySorted_snoc (l : list Z) (x : Z) :
  StronglySorted Z.le l -> Forall (fun t => t <= x) l ->
  StronglySorted Z.le (l ++ [x]).
Proof.
  induction 1 as [|a l Hs IH Ha]; intros Hx; simpl.
  - repeat constructor.
  - inversion Hx as [|? ? Hax Hlx]; subst.
    constructor; [apply IH; exact Hlx|].
    apply Forall_app. split; [exact Ha|]. constructor; [exact Hax|constructor].
Qed.

Lemma StronglySorted_filter (f : Z -> bool) (l : list Z) :
  StronglySorted Z.le l -> StronglySorted Z.le (List.filter f l).
Proof.
  induction 1 as [|a l Hs IH Ha]; simpl; [constructor|].
  destruct (f a); [|exact IH].
  constructor; [exact IH|].
  rewrite Forall_forall in Ha |- *.
  intros x Hx. apply Ha.
  apply list_elem_of_In in Hx. apply filter_In in Hx.
  apply list_elem_of_In. tauto.
Qed.

(** Right after the prune of [onEdit], no entry is older than ten
    seconds before the clock reading of that edit.  This needs nothing
    about the clock. *)
Lemma onEdit_fresh (h : Host) (this : PersonalityState) :
  Forall (fun t => dateNow h - 10000 <= t) (editTimestamps (onEdit h this)).
Proof.
  unfold onEdit; simpl. rewrite Forall_forall. intros t Ht.
  apply list_elem_of_In in Ht. apply filter_In in Ht.
  destruct Ht as [_ Ht]. apply geb_true in Ht. exact Ht.
Qed.

Lemma windowAt_mono (c c' : Z) (st : PersonalityState) :
  c <= c' -> windowAt c st -> windowAt c' st.
Proof. intros Hc (Hs & Hf & Hl). repeat split; try assumption. lia. Qed.

Lemma onEdit_windowAt (c : Z) (h : Host) (this : PersonalityState) :
  c <= dateNow h -> windowAt c this -> windowAt (dateNow h) (onEdit h this).
Proof.
  intros Hc (Hs & Hf & Hl).
  assert (Forall (fun t => t <= dateNow h) (editTimestamps this)) as Hle.
  { eapply Forall_impl; [exact Hf|]. simpl. intros t Ht. lia. }
  unfold windowAt, onEdit; simpl. repeat split.
  - apply StronglySorted_filter, StronglySorted_snoc; assumption.
  - rewrite Forall_forall. intros t Ht.
    apply list_elem_of_In in Ht. apply filter_In in Ht.
    destruct Ht as [Hin Ht]. apply geb_true in Ht.
    split; [exact Ht|].
    apply in_app_or in Hin. destruct Hin as [Hin|[<-|[]]]; [|lia].
    rewrite Forall_forall in Hle. apply Hle, list_elem_of_In, Hin.
  - lia.
Qed.

(** [markApplied] and [applyMode] do not touch the window. *)
Lemma applyMode_window (h : Host) (reply : UpdateReply)
    (mode : Mode) (state : PersonalityState) (force : bool) :
  editTimestamps (fst (applyMode h reply mode state force)) = editTimestamps state /\
  lastEditAt (fst (applyMode h reply mode state force)) = lastEditAt state.
Proof.
  pose proof (applyMode_marks_iff h reply mode state force) as H.
  cbv zeta in H.
  destruct (snd (applyMode h reply mode state force));
    try (rewrite H; split; reflexivity).
  destruct H as (resumed & _ & ->). split; reflexivity.
Qed.

Lemma handle_windowAt (c : Z) (h : Host) (e : Event) (st : PersonalityState) :
  c <= dateNow h -> windowAt c st -> windowAt (dateNow h) (handle h e st).
Proof.
  intros Hc Hw. unfold handle.
  destruct (getEnabled h); simpl; [|exact (windowAt_mono _ _ _ Hc Hw)].
  destruct e as [|reply|reply|reply].
  - exact (onEdit_windowAt c h st Hc Hw).
  - unfold onDiagnosticsChanged.
    destruct (isPanicRecovery st (computeMode h st));
      [|exact (windowAt_mono _ _ _ Hc Hw)].
    destruct (applyMode_window h reply (computeMode h st) st true) as [E1 E2].
    unfold windowAt. rewrite E1, E2. exact (windowAt_mono _ _ _ Hc Hw).
  - destruct (applyMode_window h reply (computeMode h st) st
                (isPanicRecovery st (computeMode h st))) as [E1 E2].
    unfold windowAt. rewrite E1, E2. exact (windowAt_mono _ _ _ Hc Hw).
  - destruct (applyMode_window h reply (computeMode h st) st true) as [E1 E2].
    unfold windowAt. rewrite E1, E2. exact (windowAt_mono _ _ _ Hc Hw).
Qed.

Lemma last_cons_default (l : list Z) :
  forall x d : Z, List.last (x :: l) d = List.last l x.
Proof.
  induction l as [|y l IH]; intros x d; [reflexivity|].
  change (List.last (x :: y :: l) d) with (List.last (y :: l) d).
  rewrite (IH y d), (IH y x). reflexivity.
Qed.

Lemma run_windowAt (trace : list (Host * Event)) :
  forall (c : Z) (st : PersonalityState),
    Sorted Z.le (c :: clockOf trace) -> windowAt c st ->
    windowAt (List.last (clockOf trace) c) (run trace st).
Proof.
  induction trace as [|[h e] trace IH]; intros c st Hs Hw; [exact Hw|].
  change (run ((h, e) :: trace) st) with (run trace (handle h e st)).
  change (clockOf ((h, e) :: trace)) with (dateNow h :: clockOf trace) in *.
  apply Sorted_inv in Hs. destruct Hs as [Hs Hhd].
  apply HdRel_inv in Hhd.
  rewrite last_cons_default.
  exact (IH (dateNow h) (handle h e st) Hs (handle_windowAt c h e st Hhd Hw)).
Qed.

End Window.

(** The claim of C4 as it is written fails on a tick without an
    intervening edit: after one edit at [t = 0], the tick at [t = 20 s]
    reads a window that still holds the entry [0], twenty seconds old.
    Pruning happens in [onEdit] only. *)
Lemma stale_entry_read_on_tick :
  ~ (Forall (fun t => dateNow (hostAt 20000) - 10000 <= t)
            (editTimestamps
               (run [(hostAt 20000, IntervalElapsed Rejected)] oneEditAtZero)) /\
     Sorted Z.le
            (editTimestamps
               (run [(hostAt 20000, IntervalElapsed Rejected)] oneEditAtZero))).
Proof.
  intros [H _]. vm_compute in H.
  apply Forall_inv in H. apply H. reflexivity.
Qed.

(** The stale entry is what [computeMode] counts: with a burst threshold
    of one, the mode after twenty idle seconds is focus, where an empty
    window would give calm. *)
Example stale_entry_decides_mode :
  computeMode (burstOfOne 20000) oneEditAtZero = focus /\
  computeMode (burstOfOne 20000) (newPersonalityState (hostAt 0)) = calm.
Proof. split; vm_compute; reflexivity. Qed.

(** C4, amended.  Over a session whose clock never goes back, whatever
    handlers run, the entries of [editTimestamps] are in chronological
    order and none is older than ten seconds before [lastEditAt], the time
    of the latest edit, which is not after the current clock reading; and
    right after an edit at [h] none is older than ten seconds before the
    clock reading of [h]. *)
Theorem window_invariant_lazy_pruning
    (h0 : Host) (trace : list (Host * Event)) (h : Host) :
  Sorted Z.le (dateNow h0 :: clockOf trace) ->
  windowInv (run trace (newPersonalityState h0)) /\
  lastEditAt (run trace (newPersonalityState h0))
    <= List.last (clockOf trace) (dateNow h0) /\
  Forall (fun t => dateNow h - 10000 <= t)
         (editTimestamps (onEdit h (run trace (newPersonalityState h0)))).
Proof.
  intros Hs.
  assert (windowAt (dateNow h0) (newPersonalityState h0)) as H0.
  { unfold windowAt; simpl. repeat split; [constructor | constructor | lia]. }
  destruct (run_windowAt trace (dateNow h0) (newPersonalityState h0) Hs H0)
    as (Hsorted & Hbounds & Hlast).
  split; [|split].
  - split; [apply StronglySorted_Sorted; exact Hsorted | exact Hbounds].
  - exact Hlast.
  - apply onEdit_fresh.
Qed.

(** Edits at 0 s and 1 s, a tick at 20 s, then an edit at 21 s. *)
Lemma window_invariant_lazy_pruning_witness :
  windowInv (run [(hostAt 0, DidChangeTextDocument);
                  (hostAt 1000, DidChangeTextDocument);
                  (hostAt 20000, IntervalElapsed Rejected)]
                 (newPersonalityState (hostAt 0))) /\
  lastEditAt (run [(hostAt 0, DidChangeTextDocument);
                   (hostAt 1000, DidChangeTextDocument);
                   (hostAt 20000, IntervalElapsed Rejected)]
                  (newPersonalityState (hostAt 0))) <= 20000 /\
  Forall (fun t => 21000 - 10000 <= t)
         (editTimestamps
            (onEdit (hostAt 21000)
               (run [(hostAt 0, DidChangeTextDocument);
                     (hostAt 1000, DidChangeTextDocument);
                     (hostAt 20000, IntervalElapsed Rejected)]
                    (newPersonalityState (hostAt 0))))).
Proof.
  apply (window_invariant_lazy_pruning
           (hostAt 0)
           [(hostAt 0, DidChangeTextDocument);
            (hostAt 1000, DidChangeTextDocument);
            (hostAt 20000, IntervalElapsed Rejected)]
           (hostAt 21000)).
  simpl. repeat (constructor; try lia).
Defined.

(** C9.  Ten edits, one per second from 0 s to 9 s: the burst count read
    at 9 s is ten.  One more edit at 11 s prunes what is older than
    1,000 ms: the window is then the edits from 1 s to 11 s, the one at
    0 s being gone. *)
Theorem window_of_eleven_edits (h : Host) :
  len (editTimestamps (tenEdits h)) = 10 /\
  editTimestamps (tenEdits h)
  = [0; 1000; 2000; 3000; 4000; 5000; 6000; 7000; 8000; 9000] /\
  editTimestamps (onEdit (withClock h 11000) (tenEdits h))
  = [1000; 2000; 3000; 4000; 5000; 6000; 7000; 8000; 9000; 11000] /\
  ~ In 0 (editTimestamps (onEdit (withClock h 11000) (tenEdits h))) /\
  Forall (fun t => 1000 <= t <= 11000)
         (editTimestamps (onEdit (withClock h 11000) (tenEdits h))).
Proof.
  assert (editTimestamps (tenEdits h)
          = [0; 1000; 2000; 3000; 4000; 5000; 6000; 7000; 8000; 9000]) as E9
    by reflexivity.
  assert (editTimestamps (onEdit (withClock h 11000) (tenEdits h))
          = [1000; 2000; 3000; 4000; 5000; 6000; 7000; 8000; 9000; 11000]) as E11
    by reflexivity.
  rewrite E11, E9. repeat split.
  - intros Hin. simpl in Hin. intuition discriminate.
  - repeat (constructor; [lia|]). constructor.
Qed.

(** An edit exactly ten seconds old is kept: the cut is [t >= now - 10000]. *)
Example window_keeps_ten_seconds_old (h : Host) :
  editTimestamps (onEdit (withClock h 10000) (tenEdits h))
  = [0; 1000; 2000; 3000; 4000; 5000; 6000; 7000; 8000; 9000; 10000].
Proof. reflexivity. Qed.

(** * Further properties of the code *)

(** ** The decision table of [computeMode] *)

(** X1.  [computeMode] returns [panic] exactly when the count has reached the
    threshold: the two later branches never return it. *)
Theorem computeMode_panic_iff (h : Host) (this : PersonalityState) :
  computeMode h this = panic
  <-> panicErrorThreshold (getConfig h) <= countAllDiagnostics h.
Proof.
  unfold computeMode.
  destruct (countAllDiagnostics h >=? panicErrorThreshold (getConfig h)) eqn:Ed.
  - apply geb_true in Ed. tauto.
  - apply geb_false in Ed.
    split; [|lia].
    destruct (_ >=? _); [discriminate|]. destruct (_ >=? _); discriminate.
Qed.

(** X2.  [computeMode] returns [calm] exactly when all three tests line up:
    the count is below the panic threshold, the window is shorter than
    the burst threshold, and the idle time has reached
    [idleSecondsForCalm * 1000]. *)
Theorem computeMode_calm_iff (h : Host) (this : PersonalityState) :
  computeMode h this = calm
  <-> countAllDiagnostics h < panicErrorThreshold (getConfig h) /\
      len (editTimestamps this) < focusTypingBurstThreshold (getConfig h) /\
      idleSecondsForCalm (getConfig h) * 1000 <= dateNow h - lastEditAt this.
Proof.
  unfold computeMode.
  destruct (countAllDiagnostics h >=? panicErrorThreshold (getConfig h)) eqn:Ed;
    [apply geb_true in Ed | apply geb_false in Ed].
  { split; [discriminate | lia]. }
  destruct (len (editTimestamps this) >=? focusTypingBurstThreshold (getConfig h))
    eqn:Eb; [apply geb_true in Eb | apply geb_false in Eb].
  { split; [discriminate | lia]. }
  destruct (dateNow h - lastEditAt this >=? idleSecondsForCalm (getConfig h) * 1000)
    eqn:Ei; [apply geb_true in Ei | apply geb_false in Ei].
  - tauto.
  - split; [discriminate | lia].
Qed.

(** X3.  In the turn of an edit the idle time is zero, so with a positive
    [idleSecondsForCalm] the mode computed right after [onEdit] is never
    [calm]. *)
Theorem computeMode_after_edit_not_calm (h : Host) (this : PersonalityState) :
  0 < idleSecondsForCalm (getConfig h) ->
  computeMode h (onEdit h this) <> calm.
Proof.
  intros Hpos. unfold computeMode.
  destruct (_ >=? _); [discriminate|].
  destruct (_ >=? _); [discriminate|].
  simpl lastEditAt.
  destruct (dateNow h - dateNow h >=? idleSecondsForCalm (getConfig h) * 1000) eqn:Ei;
    [|discriminate].
  apply geb_true in Ei. lia.
Qed.

Lemma computeMode_after_edit_not_calm_witness :
  computeMode (hostAt 3600000)
              (onEdit (hostAt 3600000) (newPersonalityState (hostAt 0))) <> calm.
Proof.
  apply computeMode_after_edit_not_calm. vm_compute. reflexivity.
Defined.

(** X4.  A panic threshold of zero or less means permanent panic: the count is
    never negative. *)
Theorem computeMode_nonpositive_threshold_panics
    (h : Host) (this : PersonalityState) :
  panicErrorThreshold (getConfig h) <= 0 ->
  computeMode h this = panic.
Proof.
  intros Hz. unfold computeMode.
  pose proof (countAllDiagnostics_ge_known h) as Hge.
  assert (0 <= countAllDiagnostics h) as Hnn.
  { rewrite countAllDiagnostics_eq.
    pose proof (openDiagnostics_nonneg h).
    assert (0 <= knownDiagnostics h); [|lia].
    unfold knownDiagnostics. rewrite map_fold_foldr.
    induction (map_to_list (registry h)) as [|[k v] l IH]; simpl; [lia|].
    pose proof (len_nonneg v). lia. }
  rewrite (proj2 (geb_true _ _)) by lia. reflexivity.
Qed.

(** No diagnostic anywhere, threshold zero: panic. *)
Lemma computeMode_nonpositive_threshold_panics_witness :
  computeMode (tunedAt 1000 0 20 15) (newPersonalityState (hostAt 0)) = panic.
Proof.
  apply computeMode_nonpositive_threshold_panics. vm_compute. discriminate.
Defined.

(** X5.  With [idleSecondsForCalm = 0] and a clock that has not gone back
    behind the last edit, the final fallback is never taken: [focus] is
    returned by the burst test only. *)
Theorem computeMode_zero_idle_focus_is_burst (h : Host) (this : PersonalityState) :
  idleSecondsForCalm (getConfig h) = 0 ->
  lastEditAt this <= dateNow h ->
  computeMode h this = focus ->
  focusTypingBurstThreshold (getConfig h) <= len (editTimestamps this).
Proof.
  intros Hz Hclock. unfold computeMode.
  destruct (_ >=? _); [discriminate|].
  destruct (len (editTimestamps this) >=? focusTypingBurstThreshold (getConfig h))
    eqn:Eb; [apply geb_true in Eb; intros _; exact Eb|].
  rewrite Hz.
  rewrite (proj2 (geb_true _ _)) by lia. discriminate.
Qed.

(** Twelve edits in the window: focus, and the burst threshold of twelve
    is indeed reached. *)
Lemma computeMode_zero_idle_focus_is_burst_witness :
  focusTypingBurstThreshold (getConfig (tunedAt 9000 5 0 15))
  <= len (editTimestamps
            (editsAt (hostAt 0) (List.map (Z.mul 750) (seqZ 1 12))
                     (newPersonalityState (hostAt 0)))).
Proof.
  apply (computeMode_zero_idle_focus_is_burst (tunedAt 9000 5 0 15)).
  - reflexivity.
  - vm_compute. discriminate.
  - vm_compute. reflexivity.
Defined.

(** ** What [onEdit] keeps *)

Lemma filter_geb_narrow (c1 c2 : Z) (l : list Z) :
  c1 <= c2 ->
  List.filter (fun t => t >=? c2) (List.filter (fun t => t >=? c1) l)
  = List.filter (fun t => t >=? c2) l.
Proof.
  intros Hc. induction l as [|x l IH]; simpl; [reflexivity|].
  destruct (x >=? c1) eqn:E1; simpl.
  - rewrite IH. reflexivity.
  - apply geb_false in E1.
    rewrite (proj2 (geb_false x c2)) by lia. exact IH.
Qed.

(** X6.  The timestamp of the edit itself always survives the prune and is the
    last entry: the window after [onEdit] is the old window cut at
    [now - 10000], followed by [now].  So the window is never empty after
    an edit. *)
Theorem onEdit_window (h : Host) (this : PersonalityState) :
  editTimestamps (onEdit h this)
  = List.filter (fun t => t >=? dateNow h - 10000) (editTimestamps this)
    ++ [dateNow h]
  /\ 1 <= len (editTimestamps (onEdit h this)).
Proof.
  assert (editTimestamps (onEdit h this)
          = List.filter (fun t => t >=? dateNow h - 10000) (editTimestamps this)
            ++ [dateNow h]) as E.
  { unfold onEdit; simpl. rewrite List.filter_app. simpl.
    rewrite (proj2 (geb_true (dateNow h) (dateNow h - 10000))) by lia.
    reflexivity. }
  split; [exact E|].
  rewrite E. unfold len. rewrite length_app. simpl. lia.
Qed.

(** X7.  The window after a run of edits whose clock readings never go back,
    the last one at [t]: exactly the entries of the old window and of the
    run that are no older than [t - 10000], in their order.  The
    intermediate prunes lose nothing that the last one would keep. *)
Theorem editsAt_window (h : Host) (ts : list Z) (t : Z) (st : PersonalityState) :
  Sorted Z.le (ts ++ [t]) ->
  editTimestamps (editsAt h (ts ++ [t]) st)
  = List.filter (fun x => x >=? t - 10000) (editTimestamps st ++ ts ++ [t]).
Proof.
  revert st. induction ts as [|a ts IH]; intros st Hs.
  - reflexivity.
  - change (editsAt h ((a :: ts) ++ [t]) st)
      with (editsAt h (ts ++ [t]) (onEdit (withClock h a) st)).
    simpl in Hs.
    assert (a <= t) as Hat.
    { apply Sorted_StronglySorted in Hs; [|intros x y z; apply Z.le_trans].
      apply StronglySorted_inv in Hs. destruct Hs as [_ Hall].
      rewrite Forall_forall in Hall. apply Hall.
      apply list_elem_of_In, in_or_app. right. left. reflexivity. }
    apply Sorted_inv in Hs. destruct Hs as [Hs _].
    rewrite (IH _ Hs).
    unfold onEdit; cbn [editTimestamps dateNow withClock].
    change (a :: ts) with ([a] ++ ts).
    rewrite <- !app_assoc.
    rewrite (app_assoc (editTimestamps st) [a]).
    rewrite (List.filter_app _ (List.filter _ _) (ts ++ [t])).
    rewrite (List.filter_app _ (editTimestamps st ++ [a]) (ts ++ [t])).
    rewrite filter_geb_narrow by lia.
    reflexivity.
Qed.

(** Edits at 0 s, 4 s, 9 s and 13 s on a fresh state: what is left is what
    lies within ten seconds of the last one. *)
Lemma editsAt_window_witness :
  editTimestamps (editsAt (hostAt 0) ([0; 4000; 9000] ++ [13000])
                          (newPersonalityState (hostAt 0)))
  = List.filter (fun x => x >=? 13000 - 10000)
                (editTimestamps (newPersonalityState (hostAt 0))
                 ++ [0; 4000; 9000] ++ [13000]).
Proof.
  apply editsAt_window. simpl. repeat (constructor; try lia).
Defined.

(** ** How far the count of diagnostics can be off *)

Lemma sizes_delete (m : gmap string (list Diagnostic)) (k : string)
    (v : list Diagnostic) :
  m !! k = Some v ->
  map_fold (fun _ diags n => n + len diags) 0 m
  = map_fold (fun _ diags n => n + len diags) 0 (delete k m) + len v.
Proof.
  intros Hk.
  rewrite (map_fold_delete_L (fun _ diags n => n + len diags) 0 k v m);
    [reflexivity | | exact Hk].
  intros. lia.
Qed.

Lemma sizes_nonneg (m : gmap string (list Diagnostic)) :
  0 <= map_fold (fun _ diags n => n + len diags) 0 m.
Proof.
  rewrite map_fold_foldr.
  induction (map_to_list m) as [|[k v] l IH]; simpl; [lia|].
  pose proof (len_nonneg v). lia.
Qed.

Lemma open_le_sizes (ds : list TextDocument) :
  forall m : gmap string (list Diagnostic),
    NoDup (List.map uri ds) ->
    foldr (fun d n => len (default [] (m !! uri d)) + n) 0 ds
    <= map_fold (fun _ diags n => n + len diags) 0 m.
Proof.
  induction ds as [|d ds IH]; intros m Hnd; simpl.
  - apply sizes_nonneg.
  - simpl in Hnd. apply NoDup_cons in Hnd. destruct Hnd as [Hnotin Hnd].
    destruct (m !! uri d) as [v|] eqn:Hk; simpl.
    + rewrite (sizes_delete m (uri d) v Hk).
      specialize (IH (delete (uri d) m) Hnd).
      assert (foldr (fun d0 n => len (default [] (delete (uri d) m !! uri d0)) + n) 0 ds
              = foldr (fun d0 n => len (default [] (m !! uri d0)) + n) 0 ds) as E.
      { clear IH Hnd. induction ds as [|d' ds IH']; simpl; [reflexivity|].
        rewrite IH'.
        - rewrite lookup_delete_ne; [reflexivity|].
          intros Heq. apply Hnotin. simpl. rewrite Heq. left.
        - intros Hin. apply Hnotin. simpl. right. exact Hin. }
      lia.
    + specialize (IH m Hnd). unfold len at 1. simpl. lia.
Qed.

(** X8.  When the open documents have distinct URIs, which the editor
    guarantees, [countAllDiagnostics] lies between the real number of
    diagnostics and twice that number. *)
Theorem countAllDiagnostics_at_most_double (h : Host) :
  NoDup (List.map uri (textDocuments h)) ->
  knownDiagnostics h <= countAllDiagnostics h <= 2 * knownDiagnostics h.
Proof.
  intros Hnd. rewrite countAllDiagnostics_eq.
  pose proof (openDiagnostics_nonneg h) as H0.
  pose proof (open_le_sizes (textDocuments h) (registry h) Hnd) as Hle.
  unfold openDiagnostics, getDiagnosticsOf, knownDiagnostics in *. lia.
Qed.

(** Two diagnostics in an open document and three in a closed one: the
    real number is 5, the count is 7. *)
Lemma countAllDiagnostics_at_most_double_witness :
  knownDiagnostics mixedDocuments <= countAllDiagnostics mixedDocuments
  <= 2 * knownDiagnostics mixedDocuments.
Proof.
  apply countAllDiagnostics_at_most_double.
  apply NoDup_cons. split.
  - intros Hin. apply list_elem_of_singleton in Hin. discriminate.
  - apply NoDup_singleton.
Defined.

Example countAllDiagnostics_mixed :
  knownDiagnostics mixedDocuments = 5 /\ countAllDiagnostics mixedDocuments = 7.
Proof. split; vm_compute; reflexivity. Qed.

(** X9.  [countAllDiagnostics] is the real number of diagnostics exactly when
    no open document carries a diagnostic; in particular when no document
    is open. *)
Theorem countAllDiagnostics_exact_iff (h : Host) :
  countAllDiagnostics h = knownDiagnostics h
  <-> Forall (fun d => getDiagnosticsOf h (uri d) = []) (textDocuments h).
Proof.
  rewrite countAllDiagnostics_eq. unfold openDiagnostics.
  induction (textDocuments h) as [|d ds IH]; simpl.
  - split; [constructor | lia].
  - assert (0 <= foldr (fun d0 n => len (getDiagnosticsOf h (uri d0)) + n) 0 ds) as Hnn.
    { clear IH. induction ds as [|d' ds IH']; simpl; [lia|].
      pose proof (len_nonneg (getDiagnosticsOf h (uri d'))). lia. }
    pose proof (len_nonneg (getDiagnosticsOf h (uri d))) as Hd.
    split.
    + intros E. constructor.
      * destruct (getDiagnosticsOf h (uri d)) as [|x l]; [reflexivity|].
        unfold len in E, Hnn. simpl length in E. lia.
      * apply IH. lia.
    + intros HF. apply Forall_cons in HF. destruct HF as [Hd0 HF].
      apply IH in HF. rewrite Hd0. unfold len at 1. simpl. lia.
Qed.

(** ** The gate after an apply *)

(** X10.  [markApplied] followed by an unforced [canApply]: the mode just
    applied is refused, calm after panic passes, and any other mode
    passes exactly when [cooldownSeconds * 1000] milliseconds lie between
    the two clock readings. *)
Theorem canApply_after_markApplied
    (h0 h : Host) (st : PersonalityState) (applied mode : Mode) :
  canApply h (markApplied h0 applied st) mode false
  = if bool_decide (applied = mode) then false
    else if bool_decide (applied = panic /\ mode = calm) then true
    else bool_decide (cooldownSeconds (getConfig h) * 1000 <= dateNow h - dateNow h0).
Proof.
  unfold canApply, markApplied; cbn [lastMode lastAppliedAt].
  destruct (decide (applied = mode)) as [->|Hne].
  - rewrite !bool_decide_eq_true_2 by reflexivity. reflexivity.
  - rewrite (bool_decide_eq_false_2 (Some applied = Some mode)) by congruence.
    rewrite (bool_decide_eq_false_2 (applied = mode)) by exact Hne.
    destruct (decide (applied = panic /\ mode = calm)) as [[-> ->]|Hpc].
    + rewrite !bool_decide_eq_true_2 by (try split; reflexivity). reflexivity.
    + rewrite (bool_decide_eq_false_2 (applied = panic /\ mode = calm)) by exact Hpc.
      assert (bool_decide (Some applied = Some panic) && bool_decide (mode = calm)
              = false) as ->.
      { apply andb_false_iff.
        destruct (decide (applied = panic)) as [->|Hp].
        - right. apply bool_decide_eq_false_2. intros ->. apply Hpc. tauto.
        - left. apply bool_decide_eq_false_2. congruence. }
      destruct (Z.ltb_spec (dateNow h - dateNow h0)
                           (cooldownSeconds (getConfig h) * 1000)).
      * rewrite bool_decide_eq_false_2 by lia. reflexivity.
      * rewrite bool_decide_eq_true_2 by lia. reflexivity.
Qed.

(** X11.  With [cooldownSeconds = 0] nothing is throttled: once the clock is not
    behind the last apply, every mode other than the applied one passes
    unforced. *)
Theorem canApply_zero_cooldown (h : Host) (this : PersonalityState) (mode : Mode) :
  cooldownSeconds (getConfig h) = 0 ->
  lastAppliedAt this <= dateNow h ->
  lastMode this <> Some mode ->
  canApply h this mode false = true.
Proof.
  intros Hz Hclock Hne. unfold canApply.
  rewrite bool_decide_eq_false_2 by exact Hne.
  destruct (_ && _); [reflexivity|].
  rewrite Hz. destruct (Z.ltb_spec (dateNow h - lastAppliedAt this) (0 * 1000));
    [lia | reflexivity].
Qed.

(** Calm applied at second 7, focus asked for in the same millisecond. *)
Lemma canApply_zero_cooldown_witness :
  canApply (tunedAt 7000 5 20 0) (appliedAt 7000 calm) focus false = true.
Proof.
  apply canApply_zero_cooldown.
  - reflexivity.
  - vm_compute. discriminate.
  - discriminate.
Defined.

(** ** What a handler run does to the applied mode *)

Lemma applyMode_refused (h : Host) (reply : UpdateReply)
    (mode : Mode) (st : PersonalityState) (force : bool) :
  canApply h st mode force = false ->
  fst (applyMode h reply mode st force) = st.
Proof. intros Hc. unfold applyMode. rewrite Hc. reflexivity. Qed.

Lemma applyMode_fulfilled (h r : Host)
    (mode : Mode) (st : PersonalityState) (force : bool) :
  canApply h st mode force = true ->
  fst (applyMode h (Fulfilled r) mode st force)
  = markApplied
      (if bool_decide (colorTheme h = Some (themeOf (getConfig h) mode))
       then h else r)
      mode st.
Proof.
  intros Hc. unfold applyMode. rewrite Hc. cbn [negb].
  destruct (decide (colorTheme h = Some (themeOf (getConfig h) mode))) as [E|N].
  - rewrite (bool_decide_eq_true_2 _ E).
    rewrite bool_decide_eq_false_2 by (intros N; exact (N E)). reflexivity.
  - rewrite (bool_decide_eq_false_2 _ N).
    rewrite bool_decide_eq_true_2 by exact N. reflexivity.
Qed.

Lemma isPanicRecovery_not_panic (st : PersonalityState) (mode : Mode) :
  lastMode st <> Some panic -> isPanicRecovery st mode = false.
Proof.
  intros Hne. unfold isPanicRecovery.
  rewrite bool_decide_eq_false_2 by exact Hne. reflexivity.
Qed.

Lemma isPanicRecovery_same (st : PersonalityState) (mode : Mode) :
  lastMode st = Some mode -> isPanicRecovery st mode = false.
Proof.
  intros Hm. unfold isPanicRecovery. rewrite Hm.
  destruct mode; reflexivity.
Qed.

Lemma isPanicRecovery_leaving (st : PersonalityState) (mode : Mode) :
  lastMode st = Some panic -> mode <> panic -> isPanicRecovery st mode = true.
Proof.
  intros Hp Hne. unfold isPanicRecovery.
  rewrite bool_decide_eq_true_2 by exact Hp.
  rewrite bool_decide_eq_true_2 by exact Hne. reflexivity.
Qed.

(** X12.  A tick that computes the mode already applied changes nothing: it is
    not a panic recovery, so the apply is unforced, and the gate refuses
    the applied mode. *)
Theorem tick_same_mode_unchanged
    (h : Host) (reply : UpdateReply) (st : PersonalityState) :
  lastMode st = Some (computeMode h st) ->
  handle h (IntervalElapsed reply) st = st.
Proof.
  intros Hm. unfold handle. destruct (getEnabled h); cbn [negb]; [|reflexivity].
  rewrite (isPanicRecovery_same _ _ Hm).
  apply applyMode_refused. unfold canApply.
  rewrite bool_decide_eq_true_2 by exact Hm. reflexivity.
Qed.

(** Calm applied, and an idle minute later calm is computed again; the
    cooldown is long over, still nothing is written. *)
Lemma tick_same_mode_unchanged_witness :
  handle (hostAt 67000) (IntervalElapsed (Fulfilled (hostAt 67001)))
         (appliedAt 7000 calm)
  = appliedAt 7000 calm.
Proof. apply tick_same_mode_unchanged. vm_compute. reflexivity. Defined.

(** X13.  Inside the cooldown a tick changes nothing unless the applied mode is
    panic, whatever mode it computes.  In particular a count of
    diagnostics that reaches the panic threshold does not bring panic
    earlier: entering panic is throttled like any other change. *)
Theorem tick_within_cooldown_unchanged
    (h : Host) (reply : UpdateReply) (st : PersonalityState) :
  lastMode st <> Some panic ->
  dateNow h - lastAppliedAt st < cooldownSeconds (getConfig h) * 1000 ->
  handle h (IntervalElapsed reply) st = st.
Proof.
  intros Hnp Hcool. unfold handle. destruct (getEnabled h); cbn [negb]; [|reflexivity].
  rewrite (isPanicRecovery_not_panic _ _ Hnp).
  apply applyMode_refused. unfold canApply.
  destruct (bool_decide (lastMode st = Some (computeMode h st))); [reflexivity|].
  rewrite (bool_decide_eq_false_2 _ Hnp). cbn [andb].
  destruct (Z.ltb_spec (dateNow h - lastAppliedAt st)
                       (cooldownSeconds (getConfig h) * 1000));
    [reflexivity | lia].
Qed.

(** Calm applied at second 7; three seconds later five diagnostics are
    there and the computed mode is panic, but the state stays calm. *)
Lemma tick_within_cooldown_unchanged_witness :
  computeMode (fiveErrorsAt 10000) (appliedAt 7000 calm) = panic /\
  handle (fiveErrorsAt 10000) (IntervalElapsed (Fulfilled (hostAt 10001)))
         (appliedAt 7000 calm)
  = appliedAt 7000 calm.
Proof.
  split; [vm_compute; reflexivity|].
  apply tick_within_cooldown_unchanged.
  - discriminate.
  - vm_compute. reflexivity.
Defined.

(** X14.  Once the cooldown is over, a tick of the enabled extension that
    computes a mode other than the applied one, and whose update is
    fulfilled, records that mode; the time recorded is the clock after
    the update, or the clock of the tick when the theme was in place. *)
Theorem tick_after_cooldown_applies
    (h r : Host) (st : PersonalityState) :
  getEnabled h = true ->
  lastMode st <> Some (computeMode h st) ->
  cooldownSeconds (getConfig h) * 1000 <= dateNow h - lastAppliedAt st ->
  handle h (IntervalElapsed (Fulfilled r)) st
  = markApplied
      (if bool_decide
            (colorTheme h = Some (themeOf (getConfig h) (computeMode h st)))
       then h else r)
      (computeMode h st) st.
Proof.
  intros Hen Hne Hcool. unfold handle. rewrite Hen. cbn [negb].
  apply applyMode_fulfilled. unfold canApply.
  destruct (isPanicRecovery st (computeMode h st)); [reflexivity|].
  rewrite (bool_decide_eq_false_2 _ Hne).
  destruct (_ && _); [reflexivity|].
  destruct (Z.ltb_spec (dateNow h - lastAppliedAt st)
                       (cooldownSeconds (getConfig h) * 1000));
    [lia | reflexivity].
Qed.

(** Calm applied at second 7, five diagnostics at second 22: panic is
    recorded with the clock reading after the update. *)
Lemma tick_after_cooldown_applies_witness :
  handle (fiveErrorsAt 22000) (IntervalElapsed (Fulfilled (hostAt 22050)))
         (appliedAt 7000 calm)
  = {| lastEditAt := 0; editTimestamps := [];
       lastAppliedAt := 22050; lastMode := Some panic |}.
Proof.
  apply (tick_after_cooldown_applies (fiveErrorsAt 22000) (hostAt 22050)
                                     (appliedAt 7000 calm)).
  - reflexivity.
  - intros H. vm_compute in H. discriminate.
  - vm_compute. discriminate.
Defined.

(** X15.  Leaving panic is immediate: when panic is the applied mode and the
    computed mode is another one, both the tick and the
    diagnostics-changed handler force the apply, so a fulfilled update
    records the new mode whatever the time since the last apply is. *)
Theorem panic_recovery_applies_at_once
    (h r : Host) (st : PersonalityState) :
  getEnabled h = true ->
  lastMode st = Some panic ->
  computeMode h st <> panic ->
  handle h (IntervalElapsed (Fulfilled r)) st
  = markApplied
      (if bool_decide
            (colorTheme h = Some (themeOf (getConfig h) (computeMode h st)))
       then h else r)
      (computeMode h st) st /\
  handle h (DidChangeDiagnostics (Fulfilled r)) st
  = handle h (IntervalElapsed (Fulfilled r)) st.
Proof.
  intros Hen Hp Hne. unfold handle, onDiagnosticsChanged. rewrite Hen. cbn [negb].
  rewrite (isPanicRecovery_leaving _ _ Hp Hne).
  split; [|reflexivity].
  apply applyMode_fulfilled. reflexivity.
Qed.

(** Panic applied at 7.0 s; half a second later the diagnostics are gone:
    focus is recorded at once, fifteen seconds of cooldown notwithstanding. *)
Lemma panic_recovery_applies_at_once_witness :
  handle (hostAt 7500) (IntervalElapsed (Fulfilled (hostAt 7600)))
         (appliedAt 7000 panic)
  = {| lastEditAt := 0; editTimestamps := [];
       lastAppliedAt := 7600; lastMode := Some focus |} /\
  handle (hostAt 7500) (DidChangeDiagnostics (Fulfilled (hostAt 7600)))
         (appliedAt 7000 panic)
  = handle (hostAt 7500) (IntervalElapsed (Fulfilled (hostAt 7600)))
           (appliedAt 7000 panic).
Proof.
  apply (panic_recovery_applies_at_once (hostAt 7500) (hostAt 7600)
                                        (appliedAt 7000 panic)).
  - reflexivity.
  - reflexivity.
  - intros H. vm_compute in H. discriminate.
Defined.

(** ** Whole sessions *)

Lemma run_cons (h : Host) (e : Event) (trace : list (Host * Event))
    (st : PersonalityState) :
  run ((h, e) :: trace) st = run trace (handle h e st).
Proof. reflexivity. Qed.

(** X16.  While the extension is disabled nothing is recorded: not an edit, not
    a mode.  Edits made in the meantime are missing from the window when
    it is enabled again. *)
Theorem disabled_session_unchanged
    (trace : list (Host * Event)) (st : PersonalityState) :
  Forall (fun he => getEnabled (fst he) = false) trace ->
  run trace st = st.
Proof.
  revert st. induction trace as [|[h e] trace IH]; intros st Hall; [reflexivity|].
  apply Forall_cons in Hall. destruct Hall as [Hoff Hall]. simpl in Hoff.
  rewrite run_cons. unfold handle. rewrite Hoff. cbn [negb].
  apply IH. exact Hall.
Qed.

Lemma disabled_session_unchanged_witness :
  run [(disabledAt 1000, DidChangeTextDocument);
       (disabledAt 2000, IntervalElapsed (Fulfilled (disabledAt 2001)));
       (disabledAt 3000, Activated (Fulfilled (disabledAt 3001)))]
      (newPersonalityState (hostAt 0))
  = newPersonalityState (hostAt 0).
Proof.
  apply disabled_session_unchanged.
  repeat (constructor; [reflexivity|]). constructor.
Defined.

(** X17.  Changes of the diagnostics alone never apply a mode unless panic is
    the applied one: the diagnostics-changed handler acts on a panic
    recovery only, so a rise of the count is taken up by the next tick,
    not by the notification. *)
Theorem diagnostics_changes_alone_unchanged
    (trace : list (Host * Event)) (st : PersonalityState) :
  Forall (fun he => isDiagnosticsChange (snd he) = true) trace ->
  lastMode st <> Some panic ->
  run trace st = st.
Proof.
  revert st. induction trace as [|[h e] trace IH]; intros st Hall Hnp; [reflexivity|].
  apply Forall_cons in Hall. destruct Hall as [He Hall]. simpl in He.
  rewrite run_cons.
  assert (handle h e st = st) as ->.
  { destruct e as [|reply|reply|reply]; try discriminate.
    unfold handle, onDiagnosticsChanged. destruct (getEnabled h); cbn [negb];
      [|reflexivity].
    rewrite (isPanicRecovery_not_panic _ _ Hnp). reflexivity. }
  apply IH; assumption.
Qed.

(** Five diagnostics appear while calm is applied and the cooldown is long
    over: the notifications leave the state alone. *)
Lemma diagnostics_changes_alone_unchanged_witness :
  run [(fiveErrorsAt 60000, DidChangeDiagnostics (Fulfilled (hostAt 60001)));
       (fiveErrorsAt 60500, DidChangeDiagnostics (Fulfilled (hostAt 60501)))]
      (appliedAt 7000 calm)
  = appliedAt 7000 calm.
Proof.
  apply diagnostics_changes_alone_unchanged.
  - repeat (constructor; [reflexivity|]). constructor.
  - discriminate.
Defined.

Lemma handle_applied (h : Host) (e : Event) (st : PersonalityState) :
  (lastMode (handle h e st) = lastMode st /\
   lastAppliedAt (handle h e st) = lastAppliedAt st) \/
  lastMode (handle h e st) = Some (computeMode h st).
Proof.
  assert (forall reply force,
            (lastMode (fst (applyMode h reply (computeMode h st) st force))
             = lastMode st /\
             lastAppliedAt (fst (applyMode h reply (computeMode h st) st force))
             = lastAppliedAt st) \/
            lastMode (fst (applyMode h reply (computeMode h st) st force))
            = Some (computeMode h st)) as Happly.
  { intros reply force.
    pose proof (applyMode_marks_iff h reply (computeMode h st) st force) as H.
    cbv zeta in H.
    destruct (snd (applyMode h reply (computeMode h st) st force)).
    - left. rewrite H. split; reflexivity.
    - right. rewrite H. reflexivity.
    - right. destruct H as (resumed & _ & ->). reflexivity.
    - left. rewrite H. split; reflexivity. }
  unfold handle, onDiagnosticsChanged.
  destruct (getEnabled h); cbn [negb]; [|left; split; reflexivity].
  destruct e as [|reply|reply|reply].
  - left. split; reflexivity.
  - destruct (isPanicRecovery st (computeMode h st));
      [apply Happly | left; split; reflexivity].
  - apply Happly.
  - apply Happly.
Qed.

(** X18.  The applied mode is never taken back: if after a session no mode is
    recorded, none was recorded before it, and [lastAppliedAt] still has
    the value it started with.  From a fresh state: as long as [lastMode]
    is null, [lastAppliedAt] is 0. *)
Theorem lastMode_never_reset
    (trace : list (Host * Event)) (st : PersonalityState) :
  lastMode (run trace st) = None ->
  lastMode st = None /\ lastAppliedAt (run trace st) = lastAppliedAt st.
Proof.
  revert st. induction trace as [|[h e] trace IH]; intros st Hnone.
  - split; [exact Hnone | reflexivity].
  - rewrite run_cons in *.
    destruct (IH _ Hnone) as [Hstep Hat].
    destruct (handle_applied h e st) as [[Hm Ha]|Hm].
    + split; [congruence | congruence].
    + rewrite Hm in Hstep. discriminate.
Qed.

(** An edit, then a start-up apply and a tick whose updates are rejected. *)
Lemma lastMode_never_reset_witness :
  lastMode (newPersonalityState (hostAt 0)) = None /\
  lastAppliedAt
    (run [(hostAt 1000, DidChangeTextDocument);
          (hostAt 2000, Activated Rejected);
          (hostAt 30000, IntervalElapsed Rejected)]
         (newPersonalityState (hostAt 0)))
  = lastAppliedAt (newPersonalityState (hostAt 0)).
Proof.
  apply (lastMode_never_reset
           [(hostAt 1000, DidChangeTextDocument);
            (hostAt 2000, Activated Rejected);
            (hostAt 30000, IntervalElapsed Rejected)]
           (newPersonalityState (hostAt 0))).
  vm_compute. reflexivity.
Defined.

(** X19.  Only edits touch the window: over a session without a text edit,
    whatever is applied in it, [editTimestamps] and [lastEditAt] are at
    the end what they were at the start.  Ticks never prune. *)
Theorem session_without_edits_keeps_window
    (trace : list (Host * Event)) (st : PersonalityState) :
  Forall (fun he => isEdit (snd he) = false) trace ->
  editTimestamps (run trace st) = editTimestamps st /\
  lastEditAt (run trace st) = lastEditAt st.
Proof.
  revert st. induction trace as [|[h e] trace IH]; intros st Hall.
  - split; reflexivity.
  - apply Forall_cons in Hall. destruct Hall as [He Hall]. simpl in He.
    rewrite run_cons. destruct (IH (handle h e st) Hall) as [E1 E2].
    rewrite E1, E2. clear IH E1 E2 Hall.
    unfold handle, onDiagnosticsChanged.
    destruct (getEnabled h); cbn [negb]; [|split; reflexivity].
    destruct e as [|reply|reply|reply].
    + discriminate.
    + destruct (isPanicRecovery st (computeMode h st));
        [apply applyMode_window | split; reflexivity].
    + apply applyMode_window.
    + apply applyMode_window.
Qed.

(** An edit at 0 s, then an hour of ticks and notifications: the window
    still holds the entry of the edit. *)
Lemma session_without_edits_keeps_window_witness :
  editTimestamps
    (run [(hostAt 1000, Activated (Fulfilled (hostAt 1001)));
          (fiveErrorsAt 1800000, IntervalElapsed (Fulfilled (hostAt 1800001)));
          (hostAt 3600000, DidChangeDiagnostics (Fulfilled (hostAt 3600001)))]
         oneEditAtZero)
  = editTimestamps oneEditAtZero /\
  lastEditAt
    (run [(hostAt 1000, Activated (Fulfilled (hostAt 1001)));
          (fiveErrorsAt 1800000, IntervalElapsed (Fulfilled (hostAt 1800001)));
          (hostAt 3600000, DidChangeDiagnostics (Fulfilled (hostAt 3600001)))]
         oneEditAtZero)
  = lastEditAt oneEditAtZero.
Proof.
  apply session_without_edits_keeps_window.
  repeat (constructor; [reflexivity|]). constructor.
Defined.

(** X20.  A start-up apply whose update is rejected leaves the fresh state as
    it is, with [lastAppliedAt = 0]; the first tick of the enabled
    extension whose clock has reached [cooldownSeconds * 1000] then
    passes the gate unforced and, its update fulfilled, records the mode
    it computes. *)
Theorem rejected_startup_retried_by_tick (h0 h1 r created : Host) :
  colorTheme h0
  <> Some (themeOf (getConfig h0) (computeMode h0 (newPersonalityState created))) ->
  getEnabled h1 = true ->
  cooldownSeconds (getConfig h1) * 1000 <= dateNow h1 ->
  run [(h0, Activated Rejected); (h1, IntervalElapsed (Fulfilled r))]
      (newPersonalityState created)
  = markApplied
      (if bool_decide
            (colorTheme h1
             = Some (themeOf (getConfig h1)
                             (computeMode h1 (newPersonalityState created))))
       then h1 else r)
      (computeMode h1 (newPersonalityState created))
      (newPersonalityState created).
Proof.
  intros Hth Hen Hcool.
  rewrite run_cons.
  assert (handle h0 (Activated Rejected) (newPersonalityState created)
          = newPersonalityState created) as ->.
  { unfold handle. destruct (getEnabled h0); cbn [negb]; [|reflexivity].
    unfold applyMode. cbn [canApply negb].
    rewrite (bool_decide_eq_true_2 _ Hth). reflexivity. }
  rewrite run_cons. change (run [] ?s) with s.
  unfold handle. rewrite Hen. cbn [negb].
  apply applyMode_fulfilled.
  rewrite isPanicRecovery_not_panic by discriminate.
  unfold canApply. cbn [lastMode lastAppliedAt newPersonalityState].
  rewrite bool_decide_eq_false_2 by discriminate.
  rewrite (bool_decide_eq_false_2 (None = Some panic)) by discriminate.
  cbn [andb].
  destruct (Z.ltb_spec (dateNow h1 - 0) (cooldownSeconds (getConfig h1) * 1000));
    [lia | reflexivity].
Qed.

(** The update at start-up (second 1) is rejected; the tick at second 21,
    after twenty-one idle seconds, records calm. *)
Lemma rejected_startup_retried_by_tick_witness :
  run [(hostAt 1000, Activated Rejected);
       (hostAt 21000, IntervalElapsed (Fulfilled (hostAt 21040)))]
      (newPersonalityState (hostAt 0))
  = {| lastEditAt := 0; editTimestamps := [];
       lastAppliedAt := 21040; lastMode := Some calm |}.
Proof.
  apply (rejected_startup_retried_by_tick
           (hostAt 1000) (hostAt 21000) (hostAt 21040) (hostAt 0)).
  - discriminate.
  - reflexivity.
  - vm_compute. discriminate.
Defined.
